(** * UnityLewisTransport: unity Lewis number diffusion coefficients

    A shallow embedding of [include/cantera/transport/UnityLewisTransport.h].

    The class [UnityLewisTransport] derives from [MixTransport] and owns no
    data member of its own.  Its four member functions are embedded as
    computations over a machine made of the transport object ([*this], which
    reaches the phase through [m_thermo]) and of the block of doubles the
    argument [d] points to.  [double] is IEEE binary64, embedded as Rocq's
    primitive floats; [size_t] is embedded as [N]. *)

From Stdlib Require Import ZArith NArith String.
From Stdlib Require Import Floats.PrimFloat Floats.SpecFloat Floats.FloatOps.
From Stdlib Require Import Floats.FloatAxioms.
From stdpp Require Import base option list.

Set Warnings "-inexact-float".
Local Open Scope N_scope.

Abbreviation double := float.
Abbreviation size_t := N.

(** ** Conversion [double] to [int]

    [int arr[53] = { 0.27..., ... }] converts every initialiser to [int]:
    the fractional part is discarded, and the conversion is undefined when the
    truncated value does not fit (also for infinities and NaN). *)

Definition INT_MIN : Z := (-2147483648)%Z.
Definition INT_MAX : Z := 2147483647%Z.

Definition truncate (x : double) : option Z :=
  match Prim2SF x with
  | S754_zero _ => Some 0%Z
  | S754_finite s m e =>
      let mag := Z.shiftl (Zpos m) e in
      Some (if s then (- mag)%Z else mag)
  | S754_infinity _ | S754_nan => None
  end.

Definition double_to_int (x : double) : option Z :=
  z ← truncate x;
  if ((INT_MIN <=? z) && (z <=? INT_MAX))%Z then Some z else None.

(** The initialisers of [arr], in source order. *)
Definition arr_init : list double := [
  0.27443569898605347; 0.15385763347148895; 0.5543738603591919;
  0.8452105522155762; 0.56460040807724; 0.713638424873352;
  0.8536510467529297; 0.8592507839202881; 0.5604416728019714;
  0.5199534893035889; 0.7710865139961243; 0.7710865139961243;
  0.7878470420837402; 0.790300726890564; 0.8603102564811707;
  1.0825186967849731; 1.0451807975769043; 1.053497314453125;
  1.068619966506958; 1.068619966506958; 1.074398398399353;
  1.027429461479187; 1.0375499725341797; 1.0472034215927124;
  1.059842586517334; 1.1490812301635742; 1.1581830978393555;
  0.6890178918838501; 1.2294784784317017; 1.2294784784317017;
  0.5888339281082153; 0.5265711545944214; 0.5083094239234924;
  0.74753338098526; 0.8286235332489014; 0.8666804432868958;
  0.9892193675041199; 1.094902515411377; 0.8575202822685242;
  0.8238334655761719; 1.0616075992584229; 1.070987582206726;
  0.6890308856964111; 1.0902538299560547; 1.0902538299560547;
  1.0902538299560547; 1.085353970527649; 0.7689386606216431;
  0.8779736757278442; 1.4854788780212402; 1.4919153451919556;
  1.2350292205810547; 1.2404004335403442 ]%float.

(** ** The base class and the phase, as seen from this header

    [MixTransport.h] and [ThermoPhase.h] are not part of the header.  What the
    header uses of them is an interface: [thermalConductivity()] is a
    non-const member function of the base class (it may refresh caches of the
    transport object, so it returns the new object state as well);
    [m_thermo->density()] and [m_thermo->cp_mass()] are const member functions
    of the phase; [m_nsp] is a data member of the base class. *)

Class MixTransportBase (T : Type) := {
  thermalConductivity : T → double * T;
  density : T → double;
  cp_mass : T → double;
  m_nsp : T → size_t
}.

(** ** A transport object for the examples

    A snapshot of the three properties and of the species count, with the
    flag of the conductivity cache, which [thermalConductivity()] sets. *)

Record Fixture := {
  fx_lambda : double;
  fx_rho : double;
  fx_cp : double;
  fx_nsp : size_t;
  fx_cond_ok : bool
}.

#[export] Instance Fixture_base : MixTransportBase Fixture := {
  thermalConductivity t :=
    (fx_lambda t,
     {| fx_lambda := fx_lambda t; fx_rho := fx_rho t; fx_cp := fx_cp t;
        fx_nsp := fx_nsp t; fx_cond_ok := true |});
  density := fx_rho;
  cp_mass := fx_cp;
  m_nsp := fx_nsp
}.

(** lambda = 0.05 W/(m K), rho = 1.2 kg/m^3, cp = 1000 J/(kg K), five species. *)
Definition air5 : Fixture :=
  {| fx_lambda := 0.05; fx_rho := 1.2; fx_cp := 1000; fx_nsp := 5;
     fx_cond_ok := false |}.

Definition air0 : Fixture :=
  {| fx_lambda := 0.05; fx_rho := 1.2; fx_cp := 1000; fx_nsp := 0;
     fx_cond_ok := false |}.

Definition Dm_air : double := 4.1666666666666672e-05.

(** The same mixture with a density of zero, and with a conductivity that is
    not a number. *)
Definition vacuum5 : Fixture :=
  {| fx_lambda := 0.05; fx_rho := 0; fx_cp := 1000; fx_nsp := 5;
     fx_cond_ok := false |}.

Definition broken5 : Fixture :=
  {| fx_lambda := nan; fx_rho := 1.2; fx_cp := 1000; fx_nsp := 5;
     fx_cond_ok := false |}.

(** [NotImplementedError(func)], the one exception the header throws. *)
Inductive CanteraError :=
  | NotImplementedError (func : string).

Section UnityLewisTransport.
Context {T : Type} `{MixTransportBase T}.

(** The transport object and the block of memory behind [double* const d]. *)
Record machine := Machine { this : T; mem : list double }.

(** A call returns, leaves by an exception, or has undefined behaviour
    (a store outside the block [d] points to). *)
Inductive outcome (A : Type) :=
  | Returns (a : A) (m : machine)
  | Throws (e : CanteraError) (m : machine)
  | Undefined.
Global Arguments Returns {A} a m.
Global Arguments Throws {A} e m.
Global Arguments Undefined {A}.

Definition M (A : Type) : Type := machine → outcome A.

Global Instance M_ret : MRet M := λ A a m, Returns a m.
Global Instance M_bind : MBind M := λ A B f c m,
  match c m with
  | Returns a m' => f a m'
  | Throws e m' => Throws e m'
  | Undefined => Undefined
  end.

Definition throw {A} (e : CanteraError) : M A := λ m, Throws e m.
Definition undefined {A} : M A := λ _, Undefined.

(** A const member function, or a read of a data member. *)
Definition read {X} (f : T → X) : M X := λ m, Returns (f (this m)) m.

(** The call [thermalConductivity()] on [*this]. *)
Definition call_thermalConductivity : M double := λ m,
  let '(lam, t') := thermalConductivity (this m) in
  Returns lam (Machine t' (mem m)).

(** [d[k] = v] *)
Definition store (k : size_t) (v : double) : M unit := λ m,
  if decide (N.to_nat k < length (mem m))%nat
  then Returns tt (Machine (this m) (<[N.to_nat k := v]> (mem m)))
  else Undefined.

(** [for (size_t k = k0; k < k0 + steps; k++) body(k)]: [steps] is the
    number of iterations left; [k] stays below the bound, which is a
    [size_t], so [k++] does not wrap around. *)
Fixpoint for_upto (steps : nat) (k : size_t) (body : size_t → M unit) : M unit :=
  match steps with
  | O => mret tt
  | S steps' => body k;; for_upto steps' (N.succ k) body
  end.

(** [int arr[n] = { init }] *)
Definition local_int_array (init : list double) : M (list Z) :=
  match mapM double_to_int init with
  | Some arr => mret arr
  | None => undefined
  end.

(** The order in which the three calls of
    [thermalConductivity() / (m_thermo->density() * m_thermo->cp_mass())]
    are made is unspecified in C++: T, D and C stand for the three calls. *)
Inductive operand_order := TDC | TCD | DTC | CTD | DCT | CDT.

Definition eval_Dm (o : operand_order) : M double :=
  match o with
  | TDC => lam ← call_thermalConductivity; rho ← read density; cp ← read cp_mass;
           mret (lam / (rho * cp))%float
  | TCD => lam ← call_thermalConductivity; cp ← read cp_mass; rho ← read density;
           mret (lam / (rho * cp))%float
  | DTC => rho ← read density; lam ← call_thermalConductivity; cp ← read cp_mass;
           mret (lam / (rho * cp))%float
  | CTD => cp ← read cp_mass; lam ← call_thermalConductivity; rho ← read density;
           mret (lam / (rho * cp))%float
  | DCT => rho ← read density; cp ← read cp_mass; lam ← call_thermalConductivity;
           mret (lam / (rho * cp))%float
  | CDT => cp ← read cp_mass; rho ← read density; lam ← call_thermalConductivity;
           mret (lam / (rho * cp))%float
  end.

(** ** The member functions

    In both accessors the loop is
    [for (size_t k = 0; k < m_nsp; k++) d[k] = Dm;].  Its body stores into the
    block behind [d] and nowhere else, so [m_nsp] is read once, and the loop
    makes [m_nsp] iterations.  The block behind [d] is taken not to overlap
    the transport object. *)

Definition transportModel : M string :=
  mret "UnityLewis"%string.

Definition getMixDiffCoeffs (o : operand_order) : M unit :=
  Dm ← eval_Dm o;
  arr ← local_int_array arr_init;
  n ← read m_nsp;
  for_upto (N.to_nat n) 0 (λ k, store k Dm).

Definition getMixDiffCoeffsMole : M unit :=
  throw (NotImplementedError "UnityLewisTransport::getMixDiffCoeffsMole").

Definition getMixDiffCoeffsMass (o : operand_order) : M unit :=
  Dm ← eval_Dm o;
  n ← read m_nsp;
  for_upto (N.to_nat n) 0 (λ k, store k Dm).


(** The values [arr] holds once initialised. *)
Definition arr : list Z := Eval vm_compute in default [] (mapM double_to_int arr_init).

(** ** What the claims refer to *)

(** [thermalConductivity() / (density() * massSpecificHeatCapacity())], read
    off the transport object [t]. *)
Definition unity_lewis_Dm (t : T) : double :=
  ((thermalConductivity t).1 / (density t * cp_mass t))%float.

(** The base class keeps the observation [obs] of the transport object
    across a call of [thermalConductivity()]. *)
Definition conductivity_preserves {X} (obs : T → X) : Prop :=
  ∀ t, obs (thermalConductivity t).2 = obs t.

(** The machine a call ends in, when its behaviour is defined. *)
Definition final {A} (r : outcome A) : option machine :=
  match r with
  | Returns _ m | Throws _ m => Some m
  | Undefined => None
  end.

(** [n] copies of [v] over the first [n] cells of the block. *)
Definition broadcast (v : double) (n : nat) (t : T) (d : list double) : outcome unit :=
  if decide (n ≤ length d)%nat
  then Returns tt (Machine t (replicate n v ++ drop n d))
  else Undefined.

(** The body of [getMixDiffCoeffs] with the declaration of [arr] taken out, as
    the specification words it: the reimplementation with the table removed. *)
Definition getMixDiffCoeffs_table_removed (o : operand_order) : M unit :=
  Dm ← eval_Dm o;
  n ← read m_nsp;
  for_upto (N.to_nat n) 0 (λ k, store k Dm).

(** The two supported accessors. *)
Inductive accessor := MoleFractionGradient | MassFractionGradient.

Definition run_accessor (a : accessor) (o : operand_order) : M unit :=
  match a with
  | MoleFractionGradient => getMixDiffCoeffs o
  | MassFractionGradient => getMixDiffCoeffsMass o
  end.

(** What a caller can read of the collaborators is the same in [t'] as in [t]. *)
Definition same_observables (t t' : T) : Prop :=
  density t' = density t ∧ cp_mass t' = cp_mass t ∧ m_nsp t' = m_nsp t
  ∧ (thermalConductivity t').1 = (thermalConductivity t).1.

(** ** The loop *)

Lemma store_in_range k v t d :
  (N.to_nat k < length d)%nat →
  store k v (Machine t d) = Returns tt (Machine t (<[N.to_nat k := v]> d)).
Proof. intros Hk. unfold store; simpl. by rewrite decide_True. Qed.

Lemma store_out_of_range k v t d :
  (length d ≤ N.to_nat k)%nat → store k v (Machine t d) = Undefined.
Proof. intros Hk. unfold store; simpl. rewrite decide_False; [done | lia]. Qed.

Lemma for_upto_store_fits v steps : ∀ k t d,
  (N.to_nat k + steps ≤ length d)%nat →
  for_upto steps k (λ k, store k v) (Machine t d)
  = Returns tt (Machine t (take (N.to_nat k) d ++ replicate steps v
                             ++ drop (N.to_nat k + steps) d)).
Proof.
  induction steps as [|steps IH]; intros k t d Hlen; simpl.
  - unfold mret, M_ret. by rewrite Nat.add_0_r, take_drop.
  - unfold mbind, M_bind at 1. rewrite store_in_range by lia.
    rewrite IH by (rewrite length_insert; lia).
    do 2 f_equal. rewrite N2Nat.inj_succ.
    assert (Hk : (N.to_nat k < length d)%nat) by lia.
    rewrite (take_S_r _ _ v) by (by apply list_lookup_insert_eq).
    rewrite take_insert_ge by lia.
    rewrite drop_insert_lt by lia.
    rewrite <- app_assoc; simpl. by rewrite Nat.add_succ_r.
Qed.

Lemma for_upto_store_overruns v steps : ∀ k t d,
  (length d < N.to_nat k + steps)%nat → (0 < steps)%nat →
  for_upto steps k (λ k, store k v) (Machine t d) = Undefined.
Proof.
  induction steps as [|steps IH]; intros k t d Hlen Hpos; [lia|].
  simpl. unfold mbind, M_bind at 1.
  destruct (decide (N.to_nat k < length d)%nat) as [Hk|Hk].
  - rewrite store_in_range by done.
    apply IH; rewrite ?length_insert, ?N2Nat.inj_succ; lia.
  - by rewrite store_out_of_range by lia.
Qed.

Lemma for_upto_store_0 v n t d :
  for_upto n 0 (λ k, store k v) (Machine t d) = broadcast v n t d.
Proof.
  unfold broadcast. case_decide as Hn.
  - rewrite for_upto_store_fits by (simpl; lia). by simpl.
  - apply for_upto_store_overruns; simpl; lia.
Qed.

(** ** The diffusivity and the table *)

Lemma eval_Dm_final o t d :
  ∃ v, eval_Dm o (Machine t d) = Returns v (Machine (thermalConductivity t).2 d).
Proof.
  destruct o; unfold eval_Dm, mbind, M_bind, mret, M_ret, read,
    call_thermalConductivity; simpl;
    destruct (thermalConductivity t) as [lam t']; simpl; eauto.
Qed.

Lemma eval_Dm_value o t d :
  conductivity_preserves density → conductivity_preserves cp_mass →
  eval_Dm o (Machine t d)
  = Returns (unity_lewis_Dm t) (Machine (thermalConductivity t).2 d).
Proof.
  intros Hrho Hcp. specialize (Hrho t). specialize (Hcp t).
  unfold unity_lewis_Dm.
  destruct o; unfold eval_Dm, mbind, M_bind, mret, M_ret, read,
    call_thermalConductivity; simpl;
    destruct (thermalConductivity t) as [lam t']; simpl in *;
    by rewrite ?Hrho, ?Hcp.
Qed.

Lemma arr_initialised : mapM double_to_int arr_init = Some arr.
Proof. vm_compute. reflexivity. Qed.

Lemma local_int_array_arr_init m : local_int_array arr_init m = Returns arr m.
Proof. unfold local_int_array. by rewrite arr_initialised. Qed.

(** ** The two accessors, once the diffusivity is known *)

Lemma getMixDiffCoeffsMass_run o t d v t' :
  eval_Dm o (Machine t d) = Returns v (Machine t' d) →
  getMixDiffCoeffsMass o (Machine t d) = broadcast v (N.to_nat (m_nsp t')) t' d.
Proof.
  intros HDm. unfold getMixDiffCoeffsMass, mbind, M_bind.
  rewrite HDm. unfold read; simpl. apply for_upto_store_0.
Qed.

Lemma getMixDiffCoeffs_run o t d v t' :
  eval_Dm o (Machine t d) = Returns v (Machine t' d) →
  getMixDiffCoeffs o (Machine t d) = broadcast v (N.to_nat (m_nsp t')) t' d.
Proof.
  intros HDm. unfold getMixDiffCoeffs, mbind, M_bind.
  rewrite HDm, local_int_array_arr_init. unfold read; simpl.
  apply for_upto_store_0.
Qed.

Lemma getMixDiffCoeffs_eq_Mass o m :
  getMixDiffCoeffs o m = getMixDiffCoeffsMass o m.
Proof.
  destruct m as [t d]. destruct (eval_Dm_final o t d) as [v Hv].
  by rewrite (getMixDiffCoeffs_run _ _ _ _ _ Hv),
    (getMixDiffCoeffsMass_run _ _ _ _ _ Hv).
Qed.

Lemma getMixDiffCoeffsMass_value o t d :
  conductivity_preserves density → conductivity_preserves cp_mass →
  getMixDiffCoeffsMass o (Machine t d)
  = broadcast (unity_lewis_Dm t) (N.to_nat (m_nsp (thermalConductivity t).2))
      (thermalConductivity t).2 d.
Proof.
  intros Hrho Hcp. apply getMixDiffCoeffsMass_run. by apply eval_Dm_value.
Qed.

Lemma broadcast_fits v n t d :
  (n ≤ length d)%nat →
  broadcast v n t d = Returns tt (Machine t (replicate n v ++ drop n d)).
Proof. intros Hn. unfold broadcast. by rewrite decide_True. Qed.

Lemma broadcast_lookup v n (d : list double) k :
  (k < n)%nat → (replicate n v ++ drop n d) !! k = Some v.
Proof.
  intros Hk. rewrite lookup_app_l by (by rewrite length_replicate).
  by apply lookup_replicate_2.
Qed.

(** ** The accessors read, and write the buffer only *)

Lemma run_accessor_eq_Mass a o m : run_accessor a o m = getMixDiffCoeffsMass o m.
Proof. destruct a; simpl; [apply getMixDiffCoeffs_eq_Mass | done]. Qed.

Lemma run_accessor_final a o t d m' :
  final (run_accessor a o (Machine t d)) = Some m' →
  this m' = (thermalConductivity t).2.
Proof.
  rewrite run_accessor_eq_Mass.
  destruct (eval_Dm_final o t d) as [v Hv].
  rewrite (getMixDiffCoeffsMass_run _ _ _ _ _ Hv). unfold broadcast.
  case_decide; simpl; [|done]. by intros [= <-].
Qed.

Lemma run_accessor_frame {X} (obs : T → X) a o m m' :
  conductivity_preserves obs →
  final (run_accessor a o m) = Some m' → obs (this m') = obs (this m).
Proof.
  intros Hobs Hfin. destruct m as [t d].
  rewrite (run_accessor_final _ _ _ _ _ Hfin). apply Hobs.
Qed.

Lemma run_accessor_never_throws a o m e m' : run_accessor a o m ≠ Throws e m'.
Proof.
  rewrite run_accessor_eq_Mass. destruct m as [t d].
  destruct (eval_Dm_final o t d) as [v Hv].
  rewrite (getMixDiffCoeffsMass_run _ _ _ _ _ Hv). unfold broadcast.
  by case_decide.
Qed.

Lemma run_accessor_value a o t d :
  conductivity_preserves density → conductivity_preserves cp_mass →
  conductivity_preserves m_nsp →
  (N.to_nat (m_nsp t) ≤ length d)%nat →
  run_accessor a o (Machine t d)
  = Returns tt (Machine (thermalConductivity t).2
      (replicate (N.to_nat (m_nsp t)) (unity_lewis_Dm t)
         ++ drop (N.to_nat (m_nsp t)) d)).
Proof.
  intros Hrho Hcp Hnsp Hlen.
  rewrite run_accessor_eq_Mass, getMixDiffCoeffsMass_value by done.
  rewrite Hnsp. by apply broadcast_fits.
Qed.

(** ** The claims *)

(** C1: in every state of the collaborators, with a buffer that holds at
    least N doubles, [getMixDiffCoeffs(d)] returns and every entry [d[k]],
    k in [0, N), is the one value
    [thermalConductivity() / (density() * cp_mass())]; here the base class
    keeps density, heat capacity and species count across
    [thermalConductivity()]. *)
Theorem getMixDiffCoeffs_broadcasts_Dm o t d :
  conductivity_preserves density → conductivity_preserves cp_mass →
  conductivity_preserves m_nsp →
  (N.to_nat (m_nsp t) ≤ length d)%nat →
  ∃ t' d',
    getMixDiffCoeffs o (Machine t d) = Returns tt (Machine t' d')
    ∧ ∀ k : size_t, k < m_nsp t → d' !! N.to_nat k = Some (unity_lewis_Dm t).
Proof.
  intros Hrho Hcp Hnsp Hlen. eexists _, _. split.
  - by apply (run_accessor_value MoleFractionGradient).
  - intros k Hk. apply broadcast_lookup. lia.
Qed.

(** C2: [getMixDiffCoeffsMole(d)] leaves by [NotImplementedError] in every
    state, whatever the species count, and never returns. *)
Theorem getMixDiffCoeffsMole_unsupported (m : machine) :
  getMixDiffCoeffsMole m
  = Throws (NotImplementedError "UnityLewisTransport::getMixDiffCoeffsMole") m
  ∧ ∀ a m', getMixDiffCoeffsMole m ≠ Returns a m'.
Proof. split; [reflexivity | intros a m'; discriminate]. Qed.

(** C3: on the same state [getMixDiffCoeffsMass(d)] and [getMixDiffCoeffs(d)]
    end alike, whatever order each evaluates its operands in, and with a
    buffer of at least N doubles every entry k in [0, N) of either is
    [thermalConductivity() / (density() * cp_mass())]. *)
Theorem getMixDiffCoeffsMass_same_values o1 o2 t d :
  conductivity_preserves density → conductivity_preserves cp_mass →
  conductivity_preserves m_nsp →
  (N.to_nat (m_nsp t) ≤ length d)%nat →
  ∃ t' d',
    getMixDiffCoeffs o1 (Machine t d) = Returns tt (Machine t' d')
    ∧ getMixDiffCoeffsMass o2 (Machine t d) = Returns tt (Machine t' d')
    ∧ ∀ k : size_t, k < m_nsp t → d' !! N.to_nat k = Some (unity_lewis_Dm t).
Proof.
  intros Hrho Hcp Hnsp Hlen. eexists _, _. split; [|split].
  - by apply (run_accessor_value MoleFractionGradient).
  - by apply (run_accessor_value MassFractionGradient).
  - intros k Hk. apply broadcast_lookup. lia.
Qed.

(** C4: [transportModel()] returns the label "UnityLewis" in every state of
    the transport object and of the buffer, and changes neither; it cannot
    throw nor run into undefined behaviour. *)
Theorem transportModel_constant (m : machine) :
  transportModel m = Returns "UnityLewis"%string m.
Proof. reflexivity. Qed.

(** C5: the table [arr] is dead: its initialisation is defined and changes
    nothing, and [getMixDiffCoeffs] ends exactly as its body without the
    table does, which is the body of [getMixDiffCoeffsMass]. *)
Theorem getMixDiffCoeffs_table_is_dead o (m : machine) :
  local_int_array arr_init m = Returns arr m
  ∧ getMixDiffCoeffs o m = getMixDiffCoeffs_table_removed o m
  ∧ getMixDiffCoeffs_table_removed o m = getMixDiffCoeffsMass o m.
Proof.
  split; [apply local_int_array_arr_init|].
  split; [apply getMixDiffCoeffs_eq_Mass | reflexivity].
Qed.

(** C6: two calls in succession, each of either accessor, on buffers of at
    least N doubles: both return, the first N entries of the two results are
    the same, a second call on the buffer of the first leaves it as it is, and
    what the second call reads of the collaborators is what the first read. *)
Theorem accessors_repeatable a1 a2 o1 o2 t d e :
  conductivity_preserves density → conductivity_preserves cp_mass →
  conductivity_preserves m_nsp →
  conductivity_preserves (λ t, (thermalConductivity t).1) →
  (N.to_nat (m_nsp t) ≤ length d)%nat →
  (N.to_nat (m_nsp t) ≤ length e)%nat →
  ∃ t1 d1 t2 e2,
    run_accessor a1 o1 (Machine t d) = Returns tt (Machine t1 d1)
    ∧ run_accessor a2 o2 (Machine t1 e) = Returns tt (Machine t2 e2)
    ∧ take (N.to_nat (m_nsp t)) e2 = take (N.to_nat (m_nsp t)) d1
    ∧ run_accessor a2 o2 (Machine t1 d1) = Returns tt (Machine t2 d1)
    ∧ same_observables t t1.
Proof.
  intros Hrho Hcp Hnsp Hlam Hd He.
  assert (HDm : unity_lewis_Dm (thermalConductivity t).2 = unity_lewis_Dm t).
  { unfold unity_lewis_Dm. by rewrite Hrho, Hcp, (Hlam t). }
  set (n := N.to_nat (m_nsp t)) in *.
  assert (Hn : N.to_nat (m_nsp (thermalConductivity t).2) = n).
  { by rewrite Hnsp. }
  eexists _, _, _, _. split; [by apply run_accessor_value|].
  split; [rewrite run_accessor_value by (by rewrite ?Hn); reflexivity|].
  rewrite Hn, HDm.
  split; [by rewrite !take_app_length' by (by rewrite length_replicate)|].
  split.
  - rewrite run_accessor_value
      by (rewrite ?Hn, ?length_app, ?length_replicate; done || lia).
    rewrite Hn, HDm. do 3 f_equal.
    by rewrite drop_app_length' by (by rewrite length_replicate).
  - repeat split; [apply Hrho | apply Hcp | apply Hnsp | apply (Hlam t)].
Qed.

(** C7: with no species, both supported accessors return, and the buffer,
    whatever it holds, even nothing, is as it was. *)
Theorem zero_species_no_write o1 o2 t d :
  conductivity_preserves m_nsp →
  m_nsp t = 0 →
  ∃ t',
    getMixDiffCoeffs o1 (Machine t d) = Returns tt (Machine t' d)
    ∧ getMixDiffCoeffsMass o2 (Machine t d) = Returns tt (Machine t' d).
Proof.
  intros Hnsp HN. exists (thermalConductivity t).2.
  destruct (eval_Dm_final o1 t d) as [v1 Hv1].
  destruct (eval_Dm_final o2 t d) as [v2 Hv2].
  rewrite (getMixDiffCoeffs_run _ _ _ _ _ Hv1),
    (getMixDiffCoeffsMass_run _ _ _ _ _ Hv2), Hnsp, HN.
  split; reflexivity.
Qed.

(** C8: with a buffer of exactly N doubles the three supported operations
    return; none of them ever leaves by an exception; the one exception of the
    header is [NotImplementedError], thrown by [getMixDiffCoeffsMole]. *)
Theorem supported_operations_total o t d :
  conductivity_preserves m_nsp →
  length d = N.to_nat (m_nsp t) →
  (∃ m', getMixDiffCoeffs o (Machine t d) = Returns tt m')
  ∧ (∃ m', getMixDiffCoeffsMass o (Machine t d) = Returns tt m')
  ∧ transportModel (Machine t d) = Returns "UnityLewis"%string (Machine t d)
  ∧ (∀ e m', getMixDiffCoeffs o (Machine t d) ≠ Throws e m'
             ∧ getMixDiffCoeffsMass o (Machine t d) ≠ Throws e m'
             ∧ transportModel (Machine t d) ≠ Throws e m')
  ∧ ∃ func, getMixDiffCoeffsMole (Machine t d)
            = Throws (NotImplementedError func) (Machine t d).
Proof.
  intros Hnsp Hlen.
  destruct (eval_Dm_final o t d) as [v Hv].
  split; [|split; [|split; [done|split]]].
  - rewrite (getMixDiffCoeffs_run _ _ _ _ _ Hv), Hnsp, broadcast_fits by lia.
    eauto.
  - rewrite (getMixDiffCoeffsMass_run _ _ _ _ _ Hv), Hnsp, broadcast_fits by lia.
    eauto.
  - intros e m'. split; [|split; [|done]].
    + apply (run_accessor_never_throws MoleFractionGradient).
    + apply (run_accessor_never_throws MassFractionGradient).
  - by eexists.
Qed.

(** C9: [transportModel] and [getMixDiffCoeffsMole] end in the machine they
    started in; after [getMixDiffCoeffs] and [getMixDiffCoeffsMass] density,
    heat capacity, species count and thermal conductivity read as before,
    the transport object being what [thermalConductivity()] made of it: the
    header itself writes to the buffer only. *)
Theorem collaborators_read_only o (m : machine) :
  conductivity_preserves density → conductivity_preserves cp_mass →
  conductivity_preserves m_nsp →
  conductivity_preserves (λ t, (thermalConductivity t).1) →
  final (transportModel m) = Some m
  ∧ final (getMixDiffCoeffsMole m) = Some m
  ∧ (∀ m', final (getMixDiffCoeffs o m) = Some m' →
           this m' = (thermalConductivity (this m)).2
           ∧ same_observables (this m) (this m'))
  ∧ (∀ m', final (getMixDiffCoeffsMass o m) = Some m' →
           this m' = (thermalConductivity (this m)).2
           ∧ same_observables (this m) (this m')).
Proof.
  intros Hrho Hcp Hnsp Hlam. destruct m as [t d].
  assert (Hacc : ∀ a m', final (run_accessor a o (Machine t d)) = Some m' →
    this m' = (thermalConductivity t).2 ∧ same_observables t (this m')).
  { intros a m' Hfin. split; [by apply (run_accessor_final a o t d)|].
    repeat split.
    - by apply (run_accessor_frame density a o _ _ Hrho Hfin).
    - by apply (run_accessor_frame cp_mass a o _ _ Hcp Hfin).
    - by apply (run_accessor_frame m_nsp a o _ _ Hnsp Hfin).
    - by apply (run_accessor_frame _ a o _ _ Hlam Hfin). }
  split; [done|]. split; [done|]. split.
  - apply (Hacc MoleFractionGradient).
  - apply (Hacc MassFractionGradient).
Qed.

(** C10: when [getMixDiffCoeffsMole(d)] throws, the buffer and the transport
    object are as they were at the call: nothing was written. *)
Theorem getMixDiffCoeffsMole_writes_nothing t d :
  ∃ e, getMixDiffCoeffsMole (Machine t d) = Throws e (Machine t d).
Proof. by eexists. Qed.

(** ** Further properties of the accessors *)

(** *** binary64 facts the edge cases rest on *)

Lemma is_zero_Prim2SF z : is_zero z = true → ∃ s, Prim2SF z = S754_zero s.
Proof.
  unfold is_zero. rewrite FloatAxioms.eqb_spec.
  change (Prim2SF zero) with (S754_zero false).
  destruct (Prim2SF z) as [s|[]| |[] m e]; simpl; try discriminate. eauto.
Qed.

Lemma SFeqb_refl_finite s m e :
  SFeqb (S754_finite s m e) (S754_finite s m e) = true.
Proof.
  unfold SFeqb, SFcompare.
  destruct s; rewrite Z.compare_refl, Pos.compare_refl; reflexivity.
Qed.

Lemma is_nan_Prim2SF x : is_nan x = true ↔ Prim2SF x = S754_nan.
Proof.
  unfold is_nan. rewrite FloatAxioms.eqb_spec. split.
  - destruct (Prim2SF x) as [[]|[]| |s m e]; try (simpl; discriminate); [done|].
    by rewrite SFeqb_refl_finite.
  - by intros ->.
Qed.

Lemma not_finite_Prim2SF r :
  (Prim2SF r = S754_nan ∨ ∃ s, Prim2SF r = S754_infinity s) →
  is_finite r = false.
Proof.
  unfold is_finite, is_nan, is_infinity. rewrite !FloatAxioms.eqb_spec, abs_spec.
  change (Prim2SF infinity) with (S754_infinity false).
  intros [-> | [[] ->]]; reflexivity.
Qed.

Lemma quotient_zero_divisor lam rho cp :
  is_zero rho || is_zero cp = true → is_finite (lam / (rho * cp)) = false.
Proof.
  intros Hz. apply not_finite_Prim2SF. rewrite div_spec, mul_spec.
  unfold SF64div, SFdiv, SF64mul, SFmul.
  apply orb_true_iff in Hz as [Hz|Hz]; apply is_zero_Prim2SF in Hz as [s ->].
  - destruct (Prim2SF lam), (Prim2SF cp); eauto.
  - destruct (Prim2SF lam), (Prim2SF rho); eauto.
Qed.

Lemma quotient_nan lam rho cp :
  is_nan lam || is_nan rho || is_nan cp = true →
  is_nan (lam / (rho * cp)) = true.
Proof.
  intros Hnan. apply is_nan_Prim2SF. rewrite div_spec, mul_spec.
  unfold SF64div, SFdiv, SF64mul, SFmul.
  apply orb_true_iff in Hnan as [[Hn|Hn]%orb_true_iff|Hn];
    apply is_nan_Prim2SF in Hn; rewrite Hn.
  - done.
  - destruct (Prim2SF lam); done.
  - destruct (Prim2SF lam), (Prim2SF rho); done.
Qed.

(** *** The buffer *)

Lemma broadcast_lookup_rest v n (d : list double) k :
  (n ≤ length d)%nat → (n ≤ k)%nat →
  (replicate n v ++ drop n d) !! k = d !! k.
Proof.
  intros Hn Hk. rewrite lookup_app_r by (by rewrite length_replicate).
  rewrite length_replicate, lookup_drop. f_equal. lia.
Qed.

Lemma broadcast_length v n (d : list double) :
  (n ≤ length d)%nat → length (replicate n v ++ drop n d) = length d.
Proof. intros Hn. rewrite length_app, length_replicate, length_drop. lia. Qed.

Lemma run_accessor_broadcast a o t d :
  conductivity_preserves m_nsp →
  ∃ v, run_accessor a o (Machine t d)
       = broadcast v (N.to_nat (m_nsp t)) (thermalConductivity t).2 d.
Proof.
  intros Hnsp. destruct (eval_Dm_final o t d) as [v Hv]. exists v.
  by rewrite run_accessor_eq_Mass, (getMixDiffCoeffsMass_run _ _ _ _ _ Hv), Hnsp.
Qed.

(** X1: either accessor, on a buffer longer than the species count, keeps the
    length of the buffer and every cell from index N on. *)
Theorem accessor_keeps_rest_of_buffer a o t d :
  conductivity_preserves m_nsp →
  (N.to_nat (m_nsp t) ≤ length d)%nat →
  ∃ t' d',
    run_accessor a o (Machine t d) = Returns tt (Machine t' d')
    ∧ length d' = length d
    ∧ ∀ k : nat, (N.to_nat (m_nsp t) ≤ k)%nat → d' !! k = d !! k.
Proof.
  intros Hnsp Hlen. destruct (run_accessor_broadcast a o t d Hnsp) as [v ->].
  rewrite broadcast_fits by done. eexists _, _. split; [done|].
  split; [by apply broadcast_length|].
  intros k Hk. by apply broadcast_lookup_rest.
Qed.

(** X2: there is no bounds check: either accessor returns exactly when the
    buffer holds at least N doubles, and otherwise overruns it, which is
    undefined behaviour. *)
Theorem accessor_returns_iff_buffer_fits a o t d :
  conductivity_preserves m_nsp →
  ((∃ m', run_accessor a o (Machine t d) = Returns tt m')
   ↔ (N.to_nat (m_nsp t) ≤ length d)%nat)
  ∧ (run_accessor a o (Machine t d) = Undefined
     ↔ (length d < N.to_nat (m_nsp t))%nat).
Proof.
  intros Hnsp. destruct (run_accessor_broadcast a o t d Hnsp) as [v ->].
  unfold broadcast. case_decide as Hfit; split; split.
  - done.
  - eauto.
  - discriminate.
  - lia.
  - by intros [m' ?].
  - lia.
  - lia.
  - done.
Qed.

(** X3: what an accessor leaves in the buffer depends on the transport
    object through conductivity, density, heat capacity and species count
    only, and on the buffer through its cells from index N on only. *)
Theorem accessor_result_determined a1 a2 o1 o2 t1 t2 d e :
  conductivity_preserves density → conductivity_preserves cp_mass →
  conductivity_preserves m_nsp →
  (thermalConductivity t1).1 = (thermalConductivity t2).1 →
  density t1 = density t2 → cp_mass t1 = cp_mass t2 → m_nsp t1 = m_nsp t2 →
  (N.to_nat (m_nsp t1) ≤ length d)%nat →
  (N.to_nat (m_nsp t1) ≤ length e)%nat →
  drop (N.to_nat (m_nsp t1)) d = drop (N.to_nat (m_nsp t1)) e →
  ∃ t1' t2' d',
    run_accessor a1 o1 (Machine t1 d) = Returns tt (Machine t1' d')
    ∧ run_accessor a2 o2 (Machine t2 e) = Returns tt (Machine t2' d').
Proof.
  intros Hrho Hcp Hnsp Elam Erho Ecp En Hd He Htail.
  eexists _, _, _. split; [by apply run_accessor_value|].
  rewrite run_accessor_value by (by rewrite <- ?En).
  unfold unity_lewis_Dm. by rewrite <- Elam, <- Erho, <- Ecp, <- En, Htail.
Qed.

(** X4: an exception does not take writes back.  After
    [getMixDiffCoeffs(d); getMixDiffCoeffsMole(d);] the exception leaves the
    buffer filled; after [getMixDiffCoeffsMole(d); getMixDiffCoeffs(d);] the
    accessor never ran: buffer and transport object are as before. *)
Theorem throw_keeps_earlier_writes a o t d :
  conductivity_preserves density → conductivity_preserves cp_mass →
  conductivity_preserves m_nsp →
  (N.to_nat (m_nsp t) ≤ length d)%nat →
  (run_accessor a o;; getMixDiffCoeffsMole) (Machine t d)
  = Throws (NotImplementedError "UnityLewisTransport::getMixDiffCoeffsMole")
      (Machine (thermalConductivity t).2
         (replicate (N.to_nat (m_nsp t)) (unity_lewis_Dm t)
            ++ drop (N.to_nat (m_nsp t)) d))
  ∧ (getMixDiffCoeffsMole;; run_accessor a o) (Machine t d)
    = Throws (NotImplementedError "UnityLewisTransport::getMixDiffCoeffsMole")
        (Machine t d).
Proof.
  intros Hrho Hcp Hnsp Hlen. split; [|reflexivity].
  unfold mbind, M_bind. by rewrite run_accessor_value.
Qed.

(** X5: nothing guards the division: when density or heat capacity is zero
    the accessor still returns, and each of the N entries is an infinity or
    NaN. *)
Theorem accessor_zero_divisor_not_finite a o t d :
  conductivity_preserves density → conductivity_preserves cp_mass →
  conductivity_preserves m_nsp →
  (N.to_nat (m_nsp t) ≤ length d)%nat →
  is_zero (density t) || is_zero (cp_mass t) = true →
  ∃ t' d',
    run_accessor a o (Machine t d) = Returns tt (Machine t' d')
    ∧ ∀ k : size_t, k < m_nsp t →
        ∃ x, d' !! N.to_nat k = Some x ∧ is_finite x = false.
Proof.
  intros Hrho Hcp Hnsp Hlen Hz. eexists _, _.
  split; [by apply run_accessor_value|].
  intros k Hk. eexists. split; [apply broadcast_lookup; lia|].
  by apply quotient_zero_divisor.
Qed.

(** X6: when conductivity, density or heat capacity is NaN the accessor
    still returns, and each of the N entries is NaN. *)
Theorem accessor_propagates_nan a o t d :
  conductivity_preserves density → conductivity_preserves cp_mass →
  conductivity_preserves m_nsp →
  (N.to_nat (m_nsp t) ≤ length d)%nat →
  is_nan (thermalConductivity t).1 || is_nan (density t) || is_nan (cp_mass t)
  = true →
  ∃ t' d',
    run_accessor a o (Machine t d) = Returns tt (Machine t' d')
    ∧ ∀ k : size_t, k < m_nsp t →
        ∃ x, d' !! N.to_nat k = Some x ∧ is_nan x = true.
Proof.
  intros Hrho Hcp Hnsp Hlen Hnan. eexists _, _.
  split; [by apply run_accessor_value|].
  intros k Hk. eexists. split; [apply broadcast_lookup; lia|].
  by apply quotient_nan.
Qed.


End UnityLewisTransport.

(** ** The claims on the example transport object *)

Lemma spec_example_five_species o :
  getMixDiffCoeffs o (Machine air5 (replicate 5 0%float))
  = getMixDiffCoeffsMass o (Machine air5 (replicate 5 0%float))
  ∧ ∃ t', getMixDiffCoeffs o (Machine air5 (replicate 5 0%float))
          = Returns tt (Machine t' (replicate 5 Dm_air)).
Proof. destruct o; vm_compute; eauto. Qed.

Lemma spec_example_short_buffer :
  getMixDiffCoeffs TDC (Machine air5 (replicate 4 0%float)) = Undefined.
Proof. reflexivity. Qed.

Lemma getMixDiffCoeffs_broadcasts_Dm_witness :
  ∃ t' d',
    getMixDiffCoeffs DTC (Machine air5 (replicate 7 0%float))
    = Returns tt (Machine t' d')
    ∧ ∀ k : size_t, k < 5 → d' !! N.to_nat k = Some Dm_air.
Proof.
  refine (getMixDiffCoeffs_broadcasts_Dm DTC air5 (replicate 7 0%float) _ _ _ _).
  - intros t; reflexivity.
  - intros t; reflexivity.
  - intros t; reflexivity.
  - vm_compute; lia.
Defined.

Lemma getMixDiffCoeffsMass_same_values_witness :
  ∃ t' d',
    getMixDiffCoeffs TDC (Machine air5 (replicate 5 0%float))
    = Returns tt (Machine t' d')
    ∧ getMixDiffCoeffsMass DCT (Machine air5 (replicate 5 0%float))
      = Returns tt (Machine t' d')
    ∧ ∀ k : size_t, k < 5 → d' !! N.to_nat k = Some Dm_air.
Proof.
  refine (getMixDiffCoeffsMass_same_values TDC DCT air5 (replicate 5 0%float) _ _ _ _).
  - intros t; reflexivity.
  - intros t; reflexivity.
  - intros t; reflexivity.
  - vm_compute; lia.
Defined.

Lemma accessors_repeatable_witness :
  ∃ t1 d1 t2 e2,
    run_accessor MoleFractionGradient TDC (Machine air5 (replicate 5 0%float))
    = Returns tt (Machine t1 d1)
    ∧ run_accessor MassFractionGradient CDT (Machine t1 (replicate 6 1%float))
      = Returns tt (Machine t2 e2)
    ∧ take 5 e2 = take 5 d1
    ∧ run_accessor MassFractionGradient CDT (Machine t1 d1)
      = Returns tt (Machine t2 d1)
    ∧ same_observables air5 t1.
Proof.
  refine (accessors_repeatable MoleFractionGradient MassFractionGradient
           TDC CDT air5 (replicate 5 0%float) (replicate 6 1%float) _ _ _ _ _ _).
  - intros t; reflexivity.
  - intros t; reflexivity.
  - intros t; reflexivity.
  - intros t; reflexivity.
  - vm_compute; lia.
  - vm_compute; lia.
Defined.

Lemma zero_species_no_write_witness :
  ∃ t',
    getMixDiffCoeffs TCD (Machine air0 [1%float; 2%float])
    = Returns tt (Machine t' [1%float; 2%float])
    ∧ getMixDiffCoeffsMass CTD (Machine air0 [1%float; 2%float])
      = Returns tt (Machine t' [1%float; 2%float]).
Proof.
  refine (zero_species_no_write TCD CTD air0 [1%float; 2%float] _ _).
  - intros t; reflexivity.
  - reflexivity.
Defined.

Lemma supported_operations_total_witness :
  (∃ m', getMixDiffCoeffs TDC (Machine air5 (replicate 5 0%float)) = Returns tt m')
  ∧ (∃ m', getMixDiffCoeffsMass TDC (Machine air5 (replicate 5 0%float))
           = Returns tt m')
  ∧ transportModel (Machine air5 (replicate 5 0%float))
    = Returns "UnityLewis"%string (Machine air5 (replicate 5 0%float))
  ∧ (∀ e m',
       getMixDiffCoeffs TDC (Machine air5 (replicate 5 0%float)) ≠ Throws e m'
       ∧ getMixDiffCoeffsMass TDC (Machine air5 (replicate 5 0%float))
         ≠ Throws e m'
       ∧ transportModel (Machine air5 (replicate 5 0%float)) ≠ Throws e m')
  ∧ ∃ func, getMixDiffCoeffsMole (Machine air5 (replicate 5 0%float))
            = Throws (NotImplementedError func)
                (Machine air5 (replicate 5 0%float)).
Proof.
  refine (supported_operations_total TDC air5 (replicate 5 0%float) _ _).
  - intros t; reflexivity.
  - reflexivity.
Defined.

Lemma collaborators_read_only_witness :
  final (transportModel (Machine air5 (replicate 5 0%float)))
  = Some (Machine air5 (replicate 5 0%float))
  ∧ final (getMixDiffCoeffsMole (Machine air5 (replicate 5 0%float)))
    = Some (Machine air5 (replicate 5 0%float))
  ∧ (∀ m', final (getMixDiffCoeffs TDC (Machine air5 (replicate 5 0%float)))
           = Some m' →
           this m' = (thermalConductivity air5).2
           ∧ same_observables air5 (this m'))
  ∧ (∀ m', final (getMixDiffCoeffsMass TDC (Machine air5 (replicate 5 0%float)))
           = Some m' →
           this m' = (thermalConductivity air5).2
           ∧ same_observables air5 (this m')).
Proof.
  refine (collaborators_read_only TDC (Machine air5 (replicate 5 0%float)) _ _ _ _).
  - intros t; reflexivity.
  - intros t; reflexivity.
  - intros t; reflexivity.
  - intros t; reflexivity.
Defined.

(** ** The further properties on the example transport objects *)

Lemma accessor_keeps_rest_of_buffer_witness :
  ∃ t' d',
    run_accessor MoleFractionGradient TDC
      (Machine air5 (replicate 5 0%float ++ [7%float; 8%float]))
    = Returns tt (Machine t' d')
    ∧ length d' = 7%nat
    ∧ ∀ k : nat, (5 ≤ k)%nat →
        d' !! k = (replicate 5 0%float ++ [7%float; 8%float]) !! k.
Proof.
  refine (accessor_keeps_rest_of_buffer MoleFractionGradient TDC air5
            (replicate 5 0%float ++ [7%float; 8%float]) _ _).
  - intros t; reflexivity.
  - vm_compute; lia.
Defined.

Lemma accessor_returns_iff_buffer_fits_witness :
  ((∃ m', run_accessor MassFractionGradient TDC
            (Machine air5 (replicate 4 0%float)) = Returns tt m')
   ↔ (5 ≤ 4)%nat)
  ∧ (run_accessor MassFractionGradient TDC (Machine air5 (replicate 4 0%float))
     = Undefined
     ↔ (4 < 5)%nat).
Proof.
  refine (accessor_returns_iff_buffer_fits MassFractionGradient TDC air5
            (replicate 4 0%float) _).
  intros t; reflexivity.
Defined.

Lemma accessor_result_determined_witness :
  ∃ t1' t2' d',
    run_accessor MoleFractionGradient TDC
      (Machine air5 (replicate 5 0%float ++ [9%float]))
    = Returns tt (Machine t1' d')
    ∧ run_accessor MassFractionGradient DCT
        (Machine (thermalConductivity air5).2 (replicate 5 1%float ++ [9%float]))
      = Returns tt (Machine t2' d').
Proof.
  refine (accessor_result_determined MoleFractionGradient MassFractionGradient
            TDC DCT air5 (thermalConductivity air5).2
            (replicate 5 0%float ++ [9%float]) (replicate 5 1%float ++ [9%float])
            _ _ _ _ _ _ _ _ _ _).
  - intros t; reflexivity.
  - intros t; reflexivity.
  - intros t; reflexivity.
  - reflexivity.
  - reflexivity.
  - reflexivity.
  - reflexivity.
  - vm_compute; lia.
  - vm_compute; lia.
  - reflexivity.
Defined.

Lemma throw_keeps_earlier_writes_witness :
  (run_accessor MoleFractionGradient TDC;; getMixDiffCoeffsMole)
    (Machine air5 (replicate 5 0%float))
  = Throws (NotImplementedError "UnityLewisTransport::getMixDiffCoeffsMole")
      (Machine (thermalConductivity air5).2 (replicate 5 Dm_air))
  ∧ (getMixDiffCoeffsMole;; run_accessor MoleFractionGradient TDC)
      (Machine air5 (replicate 5 0%float))
    = Throws (NotImplementedError "UnityLewisTransport::getMixDiffCoeffsMole")
        (Machine air5 (replicate 5 0%float)).
Proof.
  refine (throw_keeps_earlier_writes MoleFractionGradient TDC air5
            (replicate 5 0%float) _ _ _ _).
  - intros t; reflexivity.
  - intros t; reflexivity.
  - intros t; reflexivity.
  - vm_compute; lia.
Defined.

Lemma accessor_zero_divisor_not_finite_witness :
  ∃ t' d',
    run_accessor MoleFractionGradient TDC (Machine vacuum5 (replicate 5 0%float))
    = Returns tt (Machine t' d')
    ∧ ∀ k : size_t, k < 5 →
        ∃ x, d' !! N.to_nat k = Some x ∧ is_finite x = false.
Proof.
  refine (accessor_zero_divisor_not_finite MoleFractionGradient TDC vacuum5
            (replicate 5 0%float) _ _ _ _ _).
  - intros t; reflexivity.
  - intros t; reflexivity.
  - intros t; reflexivity.
  - vm_compute; lia.
  - reflexivity.
Defined.

Lemma accessor_propagates_nan_witness :
  ∃ t' d',
    run_accessor MassFractionGradient TDC (Machine broken5 (replicate 5 0%float))
    = Returns tt (Machine t' d')
    ∧ ∀ k : size_t, k < 5 → ∃ x, d' !! N.to_nat k = Some x ∧ is_nan x = true.
Proof.
  refine (accessor_propagates_nan MassFractionGradient TDC broken5
            (replicate 5 0%float) _ _ _ _ _).
  - intros t; reflexivity.
  - intros t; reflexivity.
  - intros t; reflexivity.
  - vm_compute; lia.
  - reflexivity.
Defined.

